(** * Flinder: [minder/types.py], the member and channel records

    A shallow embedding of the two dataclasses [DiscordMember] and
    [DiscordChannel] of [src/minder/types.py]: their properties
    ([mention], [guild], [member]/[channel]), the class methods [build],
    [resolve] and [from_member]/[from_channel], and the properties the
    specification states about them.

    Conventions.
    - Python [int] is [Z]; [str] is [string]; [Optional[T]] is [option T]
      with [None] for Python's [None].
    - Truthiness: [None] and the empty string are falsy, every object of
      the client library (guild, context, member, channel) is truthy:
      none of these classes defines [__bool__] or [__len__].
    - A call that may raise returns a [sum]: [inl] carries the raised
      [MinderBotError], [inr] the returned value.  The provider calls and
      the [logger.warning] records a call emits are kept in a trace.
    - [_guild], [_member] and [_channel] are declared with
      [dataclasses.InitVar]: the generated [__init__] takes them as
      parameters and forwards them to [__post_init__], which neither
      class defines, so it stores nothing under these names.  Reading
      [self._member] on a fresh instance finds the class attribute, the
      declared default [None].  [__init__] below is that constructor. *)

From Stdlib Require Import ZArith String Ascii List Bool DecimalString.
Import ListNotations.
Local Open Scope string_scope.
Local Open Scope Z_scope.

(* ===================================================================== *)
(** * The client library, as far as [types.py] reads it                  *)
(* ===================================================================== *)

(** [discord.Guild]: the code reads [guild.name] and [guild.id] (for the
  warning), and calls [guild.get_member(id)] / [guild.get_channel(id)];
  the two methods are the directory functions the resolvers take. *)
Module Guild.
Record t : Type := Make { name : string; id : Z }.
End Guild.

(** [commands.Context]: only [context.guild] is read.  A context of a
  private conversation has no guild. *)
Module Context.
Record t : Type := Make { guild : option Guild.t }.
End Context.

(** [MemberType]: [id], [name], [guild] and [mention] are read. *)
Module Member.
Record t : Type := Make {
  id : Z;
  name : string;
  guild : option Guild.t;
  mention : string
}.
End Member.

(** [ChannelType = Union[discord.TextChannel, discord.DMChannel]]: as for
  a member, plus the runtime type, which the code inspects with
  [isinstance(channel, discord.DMChannel)]. *)
Module Channel.
Record t : Type := Make {
  id : Z;
  name : string;
  guild : option Guild.t;
  mention : string;
  is_DMChannel : bool
}.
End Channel.

(** [ContextOrGuild = Union[commands.Context, discord.Guild]]; the
  constructor is what [isinstance(_, commands.Context)] tells apart. *)
Inductive ContextOrGuild : Type :=
| OfContext (ctx : Context.t)
| OfGuild (g : Guild.t).

(** An exception caught by [except Exception as ex]: the code asks
  whether it is a [discord.errors.NotFound] and formats it with
  [{ex}]. *)
Module PyException.
Record t : Type := Make { is_NotFound : bool; str : string }.
End PyException.

(** What a provider call does: it returns (possibly [None]) or raises. *)
Inductive Outcome (A : Type) : Type :=
| Returns (r : option A)
| Raises (ex : PyException.t).
Arguments Returns {A} r.
Arguments Raises {A} ex.

(** [getattr(None, attr)]: the exception of [guild.get_member] when
  [guild] is [None] (a context without a guild). *)
Definition AttributeError_NoneType (attr : string) : PyException.t :=
PyException.Make false
  ("'NoneType' object has no attribute '" ++ attr ++ "'").

(* ===================================================================== *)
(** * Errors, formatting and effects                                     *)
(* ===================================================================== *)

(** [minder.errors.MinderBotError], with the keyword arguments the
  raise sites of [types.py] pass.  It is the only error class of the
  module: the raise sites differ in message and keywords. *)
Module MinderBotError.
Record t : Type := Make {
  message : string;
  context : option Context.t;
  base_exception : option PyException.t
}.
End MinderBotError.

(** [str(n)] for an [int], as an f-string field formats it. *)
Definition str_int (n : Z) : string := NilZero.string_of_int (Z.to_int n).

(** The double-quote character inside the messages. *)
Definition dq : string := String (ascii_of_nat 34) EmptyString.

Inductive Method : Type := get_member_m | get_channel_m.

(** Observable effects of a call, in order. *)
Inductive Event : Type :=
| ProviderCall (meth : Method) (g : Guild.t) (id : Z)
| LogWarning (msg : string).

(** A computation: the trace it emitted and how it ended. *)
Definition Run (A : Type) : Type := (list Event * (MinderBotError.t + A))%type.

Definition ret {A} (a : A) : Run A := ([], inr a).
Definition raise {A} (e : MinderBotError.t) : Run A := ([], inl e).
Definition emit (ev : Event) : Run unit := ([ev], inr tt).
Definition bind {A B} (m : Run A) (k : A -> Run B) : Run B :=
match m with
| (tr, inl e) => (tr, inl e)
| (tr, inr a) => let (tr', r) := k a in ((tr ++ tr')%list, r)
end.

Notation "x <- m ;; k" := (bind m (fun x => k))
(at level 61, m at next level, right associativity).
Notation "m ;;; k" := (bind m (fun _ => k))
(at level 61, right associativity).

Definition trace {A} (m : Run A) : list Event := fst m.
Definition outcome {A} (m : Run A) : MinderBotError.t + A := snd m.

(** [not name]: true for [None] and for the empty string. *)
Definition not_name (name : option string) : bool :=
match name with
| None | Some EmptyString => true
| Some _ => false
end.

(** Line 58 / 123:
  [context_or_guild if not isinstance(context_or_guild, commands.Context)
   else context_or_guild.guild]. *)
Definition guild_of (context_or_guild : ContextOrGuild) : option Guild.t :=
match context_or_guild with
| OfGuild g => Some g
| OfContext ctx => Context.guild ctx
end.

(** Line 63 / 128:
  [context_or_guild if isinstance(context_or_guild, commands.Context)
   else None]. *)
Definition ctx_of (context_or_guild : ContextOrGuild) : option Context.t :=
match context_or_guild with
| OfContext ctx => Some ctx
| OfGuild _ => None
end.

(* ===================================================================== *)
(** * [class DiscordMember]                                              *)
(* ===================================================================== *)

Module DiscordMember.

(** The state of an instance, as attribute reads see it.  [id] and
    [name] are the dataclass fields.  [_guild] and [_member] are
    declared [InitVar[...] = None]: they are parameters of the
    generated [__init__] and class attributes with value [None], not
    fields.  The record holds what [self._guild] and [self._member]
    evaluate to: the class attribute [None] unless the attribute was
    assigned on the instance (the dataclass is not frozen). *)
Record t : Type := Make {
  id : Z;
  name : string;
  _guild : option Guild.t;
  _member : option Member.t
}.

(** The generated [__init__(self, id, name, _guild=None, _member=None)].
    [dataclasses] assigns the fields and hands the [InitVar] arguments
    to [__post_init__] only; the class defines no [__post_init__], so
    both arguments are dropped and the two attributes keep the class
    value [None]. *)
Definition __init__ (id : Z) (name : string)
    (_guild : option Guild.t) (_member : option Member.t) : t :=
  {| id := id; name := name; _guild := None; _member := None |}.

(** [return self._member.mention if self._member else self.name] *)
Definition mention (self : t) : string :=
  match _member self with
  | Some m => Member.mention m
  | None => name self
  end.

(** Lines 36-44. *)
Definition guild (self : t) : option Guild.t :=
  match _guild self with
  | Some g => Some g                          (* if self._guild *)
  | None =>
      match _member self with
      | Some m =>                             (* self._member and ... *)
          match Member.guild m with
          | Some g => Some g                  (* ... self._member.guild *)
          | None => None
          end
      | None => None
      end
  end.

(** [return self._member] *)
Definition member (self : t) : option Member.t := _member self.

(** Messages of the three raise sites and of the warning. *)
Definition msg_no_guild (id : Z) : string :=
  "No guild/context provided when looking up user " ++ dq ++ str_int id ++ dq
  ++ " with no provided username. Provide " ++ dq ++ "name" ++ dq
  ++ " explicitly".

Definition msg_unresolved (id : Z) : string :=
  "Failed to resolve member ID " ++ str_int id ++ " and no " ++ dq ++ "name"
  ++ dq ++ " provided.".

Definition msg_general (id : Z) (ex : PyException.t) : string :=
  "General error lookup up member ID " ++ str_int id ++ ": "
  ++ PyException.str ex.

Definition msg_warning (id : Z) (g : Guild.t) : string :=
  "No member found for ID " ++ str_int id ++ " on guild " ++ dq
  ++ Guild.name g ++ dq ++ " (ID " ++ str_int (Guild.id g)
  ++ "). Not resolving.".

Section Resolver.

(** [guild.get_member(id)], the directory provider. *)
Variable get_member : Guild.t -> Z -> Outcome Member.t.

(** The [except Exception as ex] handler of [resolve]. *)
Definition handler (id : Z) (ex : PyException.t) (warning : string)
  : Run (option Member.t) :=
  if negb (PyException.is_NotFound ex) then
    raise (MinderBotError.Make (msg_general id ex) None (Some ex))
  else
    emit (LogWarning warning) ;;; ret None.

(** Lines 70-81.  The parameter is annotated [discord.Guild], but
    [build] passes [context.guild], which may be [None]: the method
    lookup then raises [AttributeError] inside the [try], before any
    provider call, and the handler wraps it. *)
Definition resolve (id : Z) (guild : option Guild.t)
  : Run (option Member.t) :=
  match guild with
  | None =>
      raise (MinderBotError.Make
               (msg_general id (AttributeError_NoneType "get_member"))
               None (Some (AttributeError_NoneType "get_member")))
  | Some g =>
      emit (ProviderCall get_member_m g id) ;;;
      match get_member g id with
      | Returns member => ret member
      | Raises ex => handler id ex (msg_warning id g)
      end
  end.

(** Lines 50-68. *)
Definition build (id : Z) (name : option string)
    (context_or_guild : option ContextOrGuild) : Run t :=
  match context_or_guild with
  | None =>                                 (* if not context_or_guild *)
      match name with
      | None | Some EmptyString =>          (* if not name *)
          raise (MinderBotError.Make (msg_no_guild id) None None)
      | Some name => ret (__init__ id name None None)
      end
  | Some cog =>
      let guild := guild_of cog in
      member <- resolve id guild ;;
      match name with
      | None | Some EmptyString =>          (* if not name *)
          match member with
          | None =>                         (* if not member *)
              raise (MinderBotError.Make (msg_unresolved id)
                       (ctx_of cog) None)
          | Some m => ret (__init__ id (Member.name m) guild member)
          end
      | Some name => ret (__init__ id name guild member)
      end
  end.

End Resolver.

(** Lines 83-85. *)
Definition from_member (member : Member.t) : t :=
  __init__ (Member.id member) (Member.name member) (Member.guild member)
           (Some member).

End DiscordMember.

(* ===================================================================== *)
(** * [class DiscordChannel]                                             *)
(* ===================================================================== *)

Module DiscordChannel.

(** As for [DiscordMember.t]: [id], [name] and [is_dm] are fields,
    [_guild] and [_channel] are [InitVar]s with class value [None]. *)
Record t : Type := Make {
  id : Z;
  name : string;
  is_dm : option bool;
  _guild : option Guild.t;
  _channel : option Channel.t
}.

(** The generated
    [__init__(self, id, name, is_dm=None, _guild=None, _channel=None)];
    no [__post_init__], so the two [InitVar] arguments are dropped. *)
Definition __init__ (id : Z) (name : string) (is_dm : option bool)
    (_guild : option Guild.t) (_channel : option Channel.t) : t :=
  {| id := id; name := name; is_dm := is_dm;
     _guild := None; _channel := None |}.

(** [return self._channel.mention if self._channel else self.name] *)
Definition mention (self : t) : string :=
  match _channel self with
  | Some c => Channel.mention c
  | None => name self
  end.

(** Lines 101-109. *)
Definition guild (self : t) : option Guild.t :=
  match _guild self with
  | Some g => Some g                            (* if self._guild *)
  | None =>
      match _channel self with
      | Some c =>                               (* self._channel and ... *)
          match Channel.guild c with
          | Some g => Some g                    (* ... self._channel.guild *)
          | None => None
          end
      | None => None
      end
  end.

(** [return self._channel] *)
Definition channel (self : t) : option Channel.t := _channel self.

Definition msg_no_guild (id : Z) : string :=
  "No guild/context provided when looking up channel " ++ dq ++ str_int id
  ++ dq ++ " with no provided username. Provide " ++ dq ++ "name" ++ dq
  ++ " explicitly".

Definition msg_unresolved (id : Z) : string :=
  "Failed to resolve channel ID " ++ str_int id ++ " and no " ++ dq ++ "name"
  ++ dq ++ " provided.".

Definition msg_general (id : Z) (ex : PyException.t) : string :=
  "General error lookup up channel ID " ++ str_int id ++ ": "
  ++ PyException.str ex.

Definition msg_warning (id : Z) (g : Guild.t) : string :=
  "No channel found for ID " ++ str_int id ++ " on guild " ++ dq
  ++ Guild.name g ++ dq ++ " (ID " ++ str_int (Guild.id g)
  ++ "). Not resolving.".

Section Resolver.

(** [guild.get_channel(id)], the directory provider. *)
Variable get_channel : Guild.t -> Z -> Outcome Channel.t.

(** The [except Exception as ex] handler of [resolve]. *)
Definition handler (id : Z) (ex : PyException.t) (warning : string)
  : Run (option Channel.t) :=
  if negb (PyException.is_NotFound ex) then
    raise (MinderBotError.Make (msg_general id ex) None (Some ex))
  else
    emit (LogWarning warning) ;;; ret None.

(** Lines 138-149. *)
Definition resolve (id : Z) (guild : option Guild.t)
  : Run (option Channel.t) :=
  match guild with
  | None =>
      raise (MinderBotError.Make
               (msg_general id (AttributeError_NoneType "get_channel"))
               None (Some (AttributeError_NoneType "get_channel")))
  | Some g =>
      emit (ProviderCall get_channel_m g id) ;;;
      match get_channel g id with
      | Returns channel => ret channel
      | Raises ex => handler id ex (msg_warning id g)
      end
  end.

(** Lines 133-134:
    [if is_dm is None and channel:
         is_dm = isinstance(channel, discord.DMChannel)]. *)
Definition derive_is_dm (is_dm : option bool) (channel : option Channel.t)
  : option bool :=
  match is_dm, channel with
  | None, Some c => Some (Channel.is_DMChannel c)
  | _, _ => is_dm
  end.

(** Lines 115-136. *)
Definition build (id : Z) (name : option string) (is_dm : option bool)
    (context_or_guild : option ContextOrGuild) : Run t :=
  match context_or_guild with
  | None =>                                     (* if not context_or_guild *)
      match name with
      | None | Some EmptyString =>              (* if not name *)
          raise (MinderBotError.Make (msg_no_guild id) None None)
      | Some name =>
          ret (__init__ id name (derive_is_dm is_dm None) None None)
      end
  | Some cog =>
      let guild := guild_of cog in
      channel <- resolve id guild ;;
      match name with
      | None | Some EmptyString =>              (* if not name *)
          match channel with
          | None =>                             (* if not channel *)
              raise (MinderBotError.Make (msg_unresolved id)
                       (ctx_of cog) None)
          | Some c =>
              ret (__init__ id (Channel.name c) (derive_is_dm is_dm channel)
                     guild channel)
          end
      | Some name =>
          ret (__init__ id name (derive_is_dm is_dm channel) guild channel)
      end
  end.

End Resolver.

(** Lines 151-153; [_guild] is not passed and takes its default. *)
Definition from_channel (channel : Channel.t) : t :=
  __init__ (Channel.id channel) (Channel.name channel)
           (Some (Channel.is_DMChannel channel)) None (Some channel).

End DiscordChannel.

(* ===================================================================== *)
(** * Sample objects                                                     *)
(* ===================================================================== *)

Definition guildX : Guild.t := Guild.Make "Guild X" 900.
Definition guildY : Guild.t := Guild.Make "Guild Y" 901.

Definition alice : Member.t := Member.Make 42 "alice" (Some guildX) "<@42>".
Definition general : Channel.t :=
  Channel.Make 7 "general" (Some guildY) "<#7>" false.
Definition dm_channel : Channel.t := Channel.Make 8 "dm" None "<#8>" true.

(** Live objects whose [name] is the empty string. *)
Definition nameless_member : Member.t := Member.Make 43 "" (Some guildX) "<@43>".
Definition nameless_channel : Channel.t :=
  Channel.Make 9 "" (Some guildX) "<#9>" false.

Definition Forbidden : PyException.t :=
  PyException.Make false "403 Forbidden (error code: 50001): Missing Access".
Definition NotFound : PyException.t :=
  PyException.Make true "404 Not Found (error code: 10013): Unknown User".

(** A directory: on [guildX], 42 is [alice], 43 is [nameless_member], 44
    raises [NotFound], 45 raises [Forbidden]; anything else is [None]. *)
Definition sample_members (g : Guild.t) (id : Z) : Outcome Member.t :=
  if negb (Guild.id g =? 900) then Returns None
  else if id =? 42 then Returns (Some alice)
  else if id =? 43 then Returns (Some nameless_member)
  else if id =? 44 then Raises NotFound
  else if id =? 45 then Raises Forbidden
  else Returns None.

(** As [sample_members], for channels: 7, 8 and 9 are live on [guildX]. *)
Definition sample_channels (g : Guild.t) (id : Z) : Outcome Channel.t :=
  if negb (Guild.id g =? 900) then Returns None
  else if id =? 7 then Returns (Some general)
  else if id =? 8 then Returns (Some dm_channel)
  else if id =? 9 then Returns (Some nameless_channel)
  else if id =? 44 then Raises NotFound
  else if id =? 45 then Raises Forbidden
  else Returns None.

(** The provider "signals not found": it returns [None] or raises
    [discord.errors.NotFound]. *)
Definition signals_not_found {A} (o : Outcome A) : bool :=
  match o with
  | Returns None => true
  | Returns (Some _) => false
  | Raises ex => PyException.is_NotFound ex
  end.

(** The lookup gave something [resolve] returns from: a value, [None],
    or a raised [NotFound]. *)
Definition lookup_usable {A} (o : Outcome A) : bool :=
  match o with
  | Returns _ => true
  | Raises ex => PyException.is_NotFound ex
  end.

(** The lookup returned a live object. *)
Definition lookup_live {A} (o : Outcome A) : bool :=
  match o with
  | Returns (Some _) => true
  | _ => false
  end.

(** The lookup raised [discord.errors.NotFound]. *)
Definition raised_NotFound {A} (o : Outcome A) : bool :=
  match o with
  | Returns _ => false
  | Raises ex => PyException.is_NotFound ex
  end.

(** The inputs on which [build] returns a record: without a scope a
    name is needed; with a scope the context must have a guild, the
    lookup must not fail, and it must find the object when there is no
    name.  The same for both variants. *)
Definition build_returns {A} (lookup : Guild.t -> Z -> Outcome A)
    (id : Z) (name : option string) (context_or_guild : option ContextOrGuild)
  : bool :=
  match context_or_guild with
  | None => negb (not_name name)
  | Some cog =>
      match guild_of cog with
      | None => false
      | Some g =>
          if not_name name then lookup_live (lookup g id)
          else lookup_usable (lookup g id)
      end
  end.

(** The provider calls of a trace, in order. *)
Fixpoint provider_calls (tr : list Event) : list (Method * Guild.t * Z) :=
  match tr with
  | [] => []
  | ProviderCall meth g id :: tr' => (meth, g, id) :: provider_calls tr'
  | LogWarning _ :: tr' => provider_calls tr'
  end.

(** The warnings of a trace, in order. *)
Fixpoint warnings (tr : list Event) : list string :=
  match tr with
  | [] => []
  | ProviderCall _ _ _ :: tr' => warnings tr'
  | LogWarning msg :: tr' => msg :: warnings tr'
  end.

(* ===================================================================== *)
(** * [docs/conf.py]                                                     *)
(* ===================================================================== *)

Module DocsConf.

(** Lines 50-54:
    [nitpick_ignore = []
     for name in dir(builtins):
         nitpick_ignore = [('py:class', name)]]
    with [dir(builtins)] as a parameter.  The loop body assigns the
    list, it does not append to it. *)
Definition nitpick_ignore (builtin_names : list string)
  : list (string * string) :=
  fold_left (fun _ name => [("py:class", name)]) builtin_names [].

End DocsConf.

(* ===================================================================== *)
(** * Basic facts                                                        *)
(* ===================================================================== *)

Lemma outcome_bind {A B} (m : Run A) (k : A -> Run B) :
  outcome (bind m k)
  = match outcome m with
    | inl e => inl e
    | inr a => outcome (k a)
    end.
Proof.
  destruct m as [tr [e | a]]; simpl; [reflexivity |].
  destruct (k a); reflexivity.
Qed.

(** The messages of the three raise sites start with different letters,
    whatever the identifier. *)
Lemma member_msgs_distinct (id id' id'' : Z) (ex : PyException.t) :
  DiscordMember.msg_no_guild id <> DiscordMember.msg_unresolved id'
  /\ DiscordMember.msg_no_guild id <> DiscordMember.msg_general id'' ex
  /\ DiscordMember.msg_unresolved id' <> DiscordMember.msg_general id'' ex.
Proof. repeat split; discriminate. Qed.

Lemma channel_msgs_distinct (id id' id'' : Z) (ex : PyException.t) :
  DiscordChannel.msg_no_guild id <> DiscordChannel.msg_unresolved id'
  /\ DiscordChannel.msg_no_guild id <> DiscordChannel.msg_general id'' ex
  /\ DiscordChannel.msg_unresolved id' <> DiscordChannel.msg_general id'' ex.
Proof. repeat split; discriminate. Qed.

(** ** [resolve] *)

Section MemberResolve.

Variable get_member : Guild.t -> Z -> Outcome Member.t.
Variables (id : Z) (g : Guild.t).

Lemma member_resolve_returns (r : option Member.t) :
  get_member g id = Returns r ->
  DiscordMember.resolve get_member id (Some g)
  = ([ProviderCall get_member_m g id], inr r).
Proof. intros H. unfold DiscordMember.resolve. rewrite H. reflexivity. Qed.

Lemma member_resolve_NotFound (ex : PyException.t) :
  get_member g id = Raises ex ->
  PyException.is_NotFound ex = true ->
  DiscordMember.resolve get_member id (Some g)
  = ([ProviderCall get_member_m g id;
      LogWarning (DiscordMember.msg_warning id g)], inr None).
Proof.
  intros H Hnf. unfold DiscordMember.resolve, DiscordMember.handler.
  rewrite H, Hnf. reflexivity.
Qed.

Lemma member_resolve_failure (ex : PyException.t) :
  get_member g id = Raises ex ->
  PyException.is_NotFound ex = false ->
  DiscordMember.resolve get_member id (Some g)
  = ([ProviderCall get_member_m g id],
     inl (MinderBotError.Make (DiscordMember.msg_general id ex) None (Some ex))).
Proof.
  intros H Hnf. unfold DiscordMember.resolve, DiscordMember.handler.
  rewrite H, Hnf. reflexivity.
Qed.

Lemma member_resolve_not_found :
  signals_not_found (get_member g id) = true ->
  outcome (DiscordMember.resolve get_member id (Some g)) = inr None.
Proof.
  intros H. destruct (get_member g id) as [[m |] | ex] eqn:E; simpl in H.
  - discriminate.
  - rewrite (member_resolve_returns _ E). reflexivity.
  - rewrite (member_resolve_NotFound _ E H). reflexivity.
Qed.

End MemberResolve.

Section ChannelResolve.

Variable get_channel : Guild.t -> Z -> Outcome Channel.t.
Variables (id : Z) (g : Guild.t).

Lemma channel_resolve_returns (r : option Channel.t) :
  get_channel g id = Returns r ->
  DiscordChannel.resolve get_channel id (Some g)
  = ([ProviderCall get_channel_m g id], inr r).
Proof. intros H. unfold DiscordChannel.resolve. rewrite H. reflexivity. Qed.

Lemma channel_resolve_NotFound (ex : PyException.t) :
  get_channel g id = Raises ex ->
  PyException.is_NotFound ex = true ->
  DiscordChannel.resolve get_channel id (Some g)
  = ([ProviderCall get_channel_m g id;
      LogWarning (DiscordChannel.msg_warning id g)], inr None).
Proof.
  intros H Hnf. unfold DiscordChannel.resolve, DiscordChannel.handler.
  rewrite H, Hnf. reflexivity.
Qed.

Lemma channel_resolve_failure (ex : PyException.t) :
  get_channel g id = Raises ex ->
  PyException.is_NotFound ex = false ->
  DiscordChannel.resolve get_channel id (Some g)
  = ([ProviderCall get_channel_m g id],
     inl (MinderBotError.Make (DiscordChannel.msg_general id ex) None (Some ex))).
Proof.
  intros H Hnf. unfold DiscordChannel.resolve, DiscordChannel.handler.
  rewrite H, Hnf. reflexivity.
Qed.

Lemma channel_resolve_not_found :
  signals_not_found (get_channel g id) = true ->
  outcome (DiscordChannel.resolve get_channel id (Some g)) = inr None.
Proof.
  intros H. destruct (get_channel g id) as [[c |] | ex] eqn:E; simpl in H.
  - discriminate.
  - rewrite (channel_resolve_returns _ E). reflexivity.
  - rewrite (channel_resolve_NotFound _ E H). reflexivity.
Qed.

End ChannelResolve.

(** A live object comes out of [resolve] only if the provider returned
    it for that guild. *)
Lemma member_resolve_live get_member id guild m :
  outcome (DiscordMember.resolve get_member id guild) = inr (Some m) ->
  exists g, guild = Some g /\ get_member g id = Returns (Some m).
Proof.
  destruct guild as [g |]; [| discriminate].
  unfold DiscordMember.resolve, DiscordMember.handler.
  destruct (get_member g id) as [r | ex] eqn:E; simpl.
  - intros [= ->]. exists g. split; [reflexivity | exact E].
  - destruct (PyException.is_NotFound ex); discriminate.
Qed.

Lemma channel_resolve_live get_channel id guild c :
  outcome (DiscordChannel.resolve get_channel id guild) = inr (Some c) ->
  exists g, guild = Some g /\ get_channel g id = Returns (Some c).
Proof.
  destruct guild as [g |]; [| discriminate].
  unfold DiscordChannel.resolve, DiscordChannel.handler.
  destruct (get_channel g id) as [r | ex] eqn:E; simpl.
  - intros [= ->]. exists g. split; [reflexivity | exact E].
  - destruct (PyException.is_NotFound ex); discriminate.
Qed.

(** A [build] over a scope emits what its one [resolve] emits: at most
    one provider call, and the warning when it raised [NotFound]. *)
Lemma member_build_trace get_member id name cog :
  trace (DiscordMember.build get_member id name (Some cog))
  = trace (DiscordMember.resolve get_member id (guild_of cog)).
Proof.
  unfold DiscordMember.build.
  destruct (DiscordMember.resolve _ _ _) as [tr [e | member]];
    [reflexivity |].
  destruct name as [[| a s] |], member as [m |]; simpl;
    apply app_nil_r.
Qed.

Lemma channel_build_trace get_channel id name is_dm cog :
  trace (DiscordChannel.build get_channel id name is_dm (Some cog))
  = trace (DiscordChannel.resolve get_channel id (guild_of cog)).
Proof.
  unfold DiscordChannel.build.
  destruct (DiscordChannel.resolve _ _ _) as [tr [e | channel]];
    [reflexivity |].
  destruct name as [[| a s] |], channel as [c |]; simpl;
    apply app_nil_r.
Qed.

(** Unfolds a [build] with a scope down to the outcome of its
    [resolve]. *)
Ltac build_by_resolve :=
  unfold DiscordMember.build, DiscordChannel.build; rewrite outcome_bind.

(* ===================================================================== *)
(** * Properties of [build] and [resolve]                                *)
(* ===================================================================== *)

(** C1.  A scope is supplied, the provider signals "not found" (it
    returns [None] or raises [NotFound]) and no name is supplied: [build]
    raises the [MinderBotError] "Failed to resolve ... and no name
    provided" (the specification's ResolutionError), carrying the context
    when the scope came as one, and constructs no record.  Member and
    channel variant. *)
Theorem C1_build_not_found_without_name :
  (forall get_member id cog g,
      guild_of cog = Some g ->
      signals_not_found (get_member g id) = true ->
      outcome (DiscordMember.build get_member id None (Some cog))
      = inl (MinderBotError.Make (DiscordMember.msg_unresolved id)
               (ctx_of cog) None))
  /\ (forall get_channel id is_dm cog g,
      guild_of cog = Some g ->
      signals_not_found (get_channel g id) = true ->
      outcome (DiscordChannel.build get_channel id None is_dm (Some cog))
      = inl (MinderBotError.Make (DiscordChannel.msg_unresolved id)
               (ctx_of cog) None)).
Proof.
  split.
  - intros get_member id cog g Hg Hnf. build_by_resolve.
    rewrite Hg, (member_resolve_not_found _ _ _ Hnf). reflexivity.
  - intros get_channel id is_dm cog g Hg Hnf. build_by_resolve.
    rewrite Hg, (channel_resolve_not_found _ _ _ Hnf). reflexivity.
Qed.

Lemma C1_witness :
  outcome (DiscordMember.build sample_members 44 None
             (Some (OfContext (Context.Make (Some guildX)))))
  = inl (MinderBotError.Make (DiscordMember.msg_unresolved 44)
           (Some (Context.Make (Some guildX))) None)
  /\ outcome (DiscordChannel.build sample_channels 1 None None
                (Some (OfGuild guildX)))
     = inl (MinderBotError.Make (DiscordChannel.msg_unresolved 1) None None).
Proof.
  split.
  - apply (proj1 C1_build_not_found_without_name sample_members 44
             (OfContext (Context.Make (Some guildX))) guildX);
      reflexivity.
  - apply (proj2 C1_build_not_found_without_name sample_channels 1 None
             (OfGuild guildX) guildX);
      reflexivity.
Defined.

(** C2.  A scope and a (non-empty) name are supplied and the provider
    signals "not found": [build] returns a record with the supplied
    name, whose [mention] is that name and whose live reference is
    absent.  Member and channel variant. *)
Theorem C2_build_not_found_with_name :
  (forall get_member id s cog g,
      s <> "" ->
      guild_of cog = Some g ->
      signals_not_found (get_member g id) = true ->
      exists r,
        outcome (DiscordMember.build get_member id (Some s) (Some cog)) = inr r
        /\ DiscordMember.id r = id
        /\ DiscordMember.name r = s
        /\ DiscordMember.mention r = s
        /\ DiscordMember.member r = None)
  /\ (forall get_channel id s is_dm cog g,
      s <> "" ->
      guild_of cog = Some g ->
      signals_not_found (get_channel g id) = true ->
      exists r,
        outcome (DiscordChannel.build get_channel id (Some s) is_dm (Some cog))
        = inr r
        /\ DiscordChannel.id r = id
        /\ DiscordChannel.name r = s
        /\ DiscordChannel.mention r = s
        /\ DiscordChannel.channel r = None
        /\ DiscordChannel.is_dm r = is_dm).
Proof.
  split.
  - intros get_member id s cog g Hs Hg Hnf.
    destruct s as [| c s]; [contradiction |].
    eexists. split.
    + build_by_resolve.
      rewrite Hg, (member_resolve_not_found _ _ _ Hnf). reflexivity.
    + repeat split.
  - intros get_channel id s is_dm cog g Hs Hg Hnf.
    destruct s as [| c s]; [contradiction |].
    eexists. split.
    + build_by_resolve.
      rewrite Hg, (channel_resolve_not_found _ _ _ Hnf). reflexivity.
    + repeat split. destruct is_dm; reflexivity.
Qed.

Lemma C2_witness :
  (exists r,
      outcome (DiscordMember.build sample_members 44 (Some "bob")
                 (Some (OfGuild guildX))) = inr r
      /\ DiscordMember.id r = 44
      /\ DiscordMember.name r = "bob"
      /\ DiscordMember.mention r = "bob"
      /\ DiscordMember.member r = None)
  /\ (exists r,
      outcome (DiscordChannel.build sample_channels 1 (Some "lobby") None
                 (Some (OfGuild guildX))) = inr r
      /\ DiscordChannel.id r = 1
      /\ DiscordChannel.name r = "lobby"
      /\ DiscordChannel.mention r = "lobby"
      /\ DiscordChannel.channel r = None
      /\ DiscordChannel.is_dm r = None).
Proof.
  split.
  - apply (proj1 C2_build_not_found_with_name sample_members 44 "bob"
             (OfGuild guildX) guildX);
      [discriminate | reflexivity | reflexivity].
  - apply (proj2 C2_build_not_found_with_name sample_channels 1 "lobby" None
             (OfGuild guildX) guildX);
      [discriminate | reflexivity | reflexivity].
Defined.

(** C4.  The provider raises something other than [NotFound]: [resolve]
    raises a [MinderBotError] (the specification's ResolutionError)
    whose [base_exception] is the provider's exception, and a [build]
    over that scope ends with the same error, whatever the name.  Member
    and channel variant. *)
Theorem C4_provider_failure_is_wrapped :
  (forall get_member id g ex,
      get_member g id = Raises ex ->
      PyException.is_NotFound ex = false ->
      exists e,
        outcome (DiscordMember.resolve get_member id (Some g)) = inl e
        /\ MinderBotError.message e = DiscordMember.msg_general id ex
        /\ MinderBotError.base_exception e = Some ex
        /\ forall name cog,
            guild_of cog = Some g ->
            outcome (DiscordMember.build get_member id name (Some cog))
            = inl e)
  /\ (forall get_channel id g ex,
      get_channel g id = Raises ex ->
      PyException.is_NotFound ex = false ->
      exists e,
        outcome (DiscordChannel.resolve get_channel id (Some g)) = inl e
        /\ MinderBotError.message e = DiscordChannel.msg_general id ex
        /\ MinderBotError.base_exception e = Some ex
        /\ forall name is_dm cog,
            guild_of cog = Some g ->
            outcome (DiscordChannel.build get_channel id name is_dm (Some cog))
            = inl e).
Proof.
  split.
  - intros get_member id g ex H Hnf. eexists.
    rewrite (member_resolve_failure _ _ _ _ H Hnf).
    repeat split. intros name cog Hg. build_by_resolve.
    rewrite Hg, (member_resolve_failure _ _ _ _ H Hnf). reflexivity.
  - intros get_channel id g ex H Hnf. eexists.
    rewrite (channel_resolve_failure _ _ _ _ H Hnf).
    repeat split. intros name is_dm cog Hg. build_by_resolve.
    rewrite Hg, (channel_resolve_failure _ _ _ _ H Hnf). reflexivity.
Qed.

Lemma C4_witness :
  (exists e,
      outcome (DiscordMember.resolve sample_members 45 (Some guildX)) = inl e
      /\ MinderBotError.message e = DiscordMember.msg_general 45 Forbidden
      /\ MinderBotError.base_exception e = Some Forbidden
      /\ forall name cog,
          guild_of cog = Some guildX ->
          outcome (DiscordMember.build sample_members 45 name (Some cog))
          = inl e)
  /\ (exists e,
      outcome (DiscordChannel.resolve sample_channels 45 (Some guildX)) = inl e
      /\ MinderBotError.message e = DiscordChannel.msg_general 45 Forbidden
      /\ MinderBotError.base_exception e = Some Forbidden
      /\ forall name is_dm cog,
          guild_of cog = Some guildX ->
          outcome (DiscordChannel.build sample_channels 45 name is_dm
                     (Some cog))
          = inl e).
Proof.
  split.
  - apply (proj1 C4_provider_failure_is_wrapped sample_members 45 guildX
             Forbidden); reflexivity.
  - apply (proj2 C4_provider_failure_is_wrapped sample_channels 45 guildX
             Forbidden); reflexivity.
Defined.

(** C5.  Neither a scope nor a name is supplied: [build] raises the
    [MinderBotError] "No guild/context provided ..." (the
    specification's ConfigurationError).  The trace is empty, so no
    provider call was made, and no record is returned.  The error is
    none of the errors raised for a failed resolution: the class is the
    same [MinderBotError], the message tells them apart.  Member and
    channel variant. *)
Theorem C5_build_without_scope_and_name :
  (forall get_member id,
      DiscordMember.build get_member id None None
      = ([], inl (MinderBotError.Make (DiscordMember.msg_no_guild id) None None))
      /\ forall id' ctx ex,
          MinderBotError.Make (DiscordMember.msg_no_guild id) None None
          <> MinderBotError.Make (DiscordMember.msg_unresolved id') ctx None
          /\ MinderBotError.Make (DiscordMember.msg_no_guild id) None None
             <> MinderBotError.Make (DiscordMember.msg_general id' ex) None
                  (Some ex))
  /\ (forall get_channel id is_dm,
      DiscordChannel.build get_channel id None is_dm None
      = ([], inl (MinderBotError.Make (DiscordChannel.msg_no_guild id) None None))
      /\ forall id' ctx ex,
          MinderBotError.Make (DiscordChannel.msg_no_guild id) None None
          <> MinderBotError.Make (DiscordChannel.msg_unresolved id') ctx None
          /\ MinderBotError.Make (DiscordChannel.msg_no_guild id) None None
             <> MinderBotError.Make (DiscordChannel.msg_general id' ex) None
                  (Some ex)).
Proof.
  split.
  - intros get_member id. split; [reflexivity |].
    intros id' ctx ex. split; discriminate.
  - intros get_channel id is_dm. split; [reflexivity |].
    intros id' ctx ex. split; discriminate.
Qed.

Lemma C5_witness :
  DiscordMember.build sample_members 42 None None
  = ([], inl (MinderBotError.Make (DiscordMember.msg_no_guild 42) None None))
  /\ DiscordChannel.build sample_channels 7 None (Some true) None
     = ([], inl (MinderBotError.Make (DiscordChannel.msg_no_guild 7) None None)).
Proof.
  split.
  - apply (proj1 (proj1 C5_build_without_scope_and_name sample_members 42)).
  - apply (proj1 (proj2 C5_build_without_scope_and_name sample_channels 7
                    (Some true))).
Defined.

(** C8.  The [guild] property returns the stored [_guild] when there is
    one; otherwise the guild of the live reference, when there is a live
    reference and it has a guild; otherwise [None].  Member and channel
    variant, for every state of the instance attributes. *)
Theorem C8_guild_priority :
  (forall r : DiscordMember.t,
      (forall g, DiscordMember._guild r = Some g ->
                 DiscordMember.guild r = Some g)
      /\ (forall m g,
             DiscordMember._guild r = None ->
             DiscordMember._member r = Some m ->
             Member.guild m = Some g ->
             DiscordMember.guild r = Some g)
      /\ (DiscordMember._guild r = None ->
          (DiscordMember._member r = None
           \/ exists m, DiscordMember._member r = Some m
                        /\ Member.guild m = None) ->
          DiscordMember.guild r = None))
  /\ (forall r : DiscordChannel.t,
      (forall g, DiscordChannel._guild r = Some g ->
                 DiscordChannel.guild r = Some g)
      /\ (forall c g,
             DiscordChannel._guild r = None ->
             DiscordChannel._channel r = Some c ->
             Channel.guild c = Some g ->
             DiscordChannel.guild r = Some g)
      /\ (DiscordChannel._guild r = None ->
          (DiscordChannel._channel r = None
           \/ exists c, DiscordChannel._channel r = Some c
                        /\ Channel.guild c = None) ->
          DiscordChannel.guild r = None)).
Proof.
  split; intros r.
  - unfold DiscordMember.guild. split; [| split].
    + intros g ->. reflexivity.
    + intros m g -> -> ->. reflexivity.
    + intros -> [-> | (m & -> & ->)]; reflexivity.
  - unfold DiscordChannel.guild. split; [| split].
    + intros g ->. reflexivity.
    + intros c g -> -> ->. reflexivity.
    + intros -> [-> | (c & -> & ->)]; reflexivity.
Qed.

Lemma C8_witness :
  DiscordMember.guild (DiscordMember.Make 42 "alice" (Some guildY) (Some alice))
  = Some guildY
  /\ DiscordMember.guild (DiscordMember.Make 42 "alice" None (Some alice))
     = Some guildX
  /\ DiscordMember.guild (DiscordMember.Make 42 "alice" None None) = None
  /\ DiscordChannel.guild
       (DiscordChannel.Make 7 "general" None (Some guildX) (Some general))
     = Some guildX
  /\ DiscordChannel.guild
       (DiscordChannel.Make 7 "general" None None (Some general))
     = Some guildY
  /\ DiscordChannel.guild
       (DiscordChannel.Make 8 "dm" (Some true) None (Some dm_channel))
     = None.
Proof.
  refine (conj _ (conj _ (conj _ (conj _ (conj _ _))))).
  - apply (proj1 (proj1 C8_guild_priority
                    (DiscordMember.Make 42 "alice" (Some guildY) (Some alice)))).
    reflexivity.
  - apply (proj1 (proj2 (proj1 C8_guild_priority
                           (DiscordMember.Make 42 "alice" None (Some alice))))
             alice guildX); reflexivity.
  - apply (proj2 (proj2 (proj1 C8_guild_priority
                           (DiscordMember.Make 42 "alice" None None))));
      [reflexivity | left; reflexivity].
  - apply (proj1 (proj2 C8_guild_priority
                    (DiscordChannel.Make 7 "general" None (Some guildX)
                       (Some general)))).
    reflexivity.
  - apply (proj1 (proj2 (proj2 C8_guild_priority
                           (DiscordChannel.Make 7 "general" None None
                              (Some general))))
             general guildY); reflexivity.
  - apply (proj2 (proj2 (proj2 C8_guild_priority
                           (DiscordChannel.Make 8 "dm" (Some true) None
                              (Some dm_channel)))));
      [reflexivity | right; exists dm_channel; split; reflexivity].
Defined.

(** C9, as stated, fails in its last clause: given the empty string as
    name and a live object whose own name is empty, [build] succeeds and
    the record's name is the empty string. *)
Lemma C9_empty_name_returned :
  outcome (DiscordMember.build sample_members 43 (Some "")
             (Some (OfGuild guildX)))
  = inr (DiscordMember.Make 43 "" None None)
  /\ DiscordMember.name (DiscordMember.Make 43 "" None None) = ""
  /\ outcome (DiscordChannel.build sample_channels 9 (Some "") None
                (Some (OfGuild guildX)))
     = inr (DiscordChannel.Make 9 "" (Some false) None None)
  /\ DiscordChannel.name (DiscordChannel.Make 9 "" (Some false) None None)
     = "".
Proof. repeat split. Qed.

(** C9, amended.  An empty-string name is treated as no name.  The two
    calls are the same computation; in particular, without a scope
    [build] raises the "No guild/context provided" error, with a scope
    and a not-found lookup it raises the "Failed to resolve" error, and
    whenever it returns a record the provider returned a live object for
    the id on the guild of the scope and the record's name is that
    object's name: it is never taken from the argument, and it is empty
    only if the live object's name is.  Member and channel variant. *)
Theorem C9_empty_name_is_no_name :
  (forall get_member id cog,
      DiscordMember.build get_member id (Some "") cog
      = DiscordMember.build get_member id None cog
      /\ (cog = None ->
          DiscordMember.build get_member id (Some "") cog
          = ([], inl (MinderBotError.Make (DiscordMember.msg_no_guild id)
                        None None)))
      /\ (forall c g,
             cog = Some c -> guild_of c = Some g ->
             signals_not_found (get_member g id) = true ->
             outcome (DiscordMember.build get_member id (Some "") cog)
             = inl (MinderBotError.Make (DiscordMember.msg_unresolved id)
                      (ctx_of c) None))
      /\ (forall c g m,
             cog = Some c -> guild_of c = Some g ->
             get_member g id = Returns (Some m) ->
             exists r,
               outcome (DiscordMember.build get_member id (Some "") cog) = inr r
               /\ DiscordMember.name r = Member.name m)
      /\ (forall r,
             outcome (DiscordMember.build get_member id (Some "") cog) = inr r ->
             exists c g m,
               cog = Some c /\ guild_of c = Some g
               /\ get_member g id = Returns (Some m)
               /\ DiscordMember.name r = Member.name m
               /\ (Member.name m <> "" -> DiscordMember.name r <> "")))
  /\ (forall get_channel id is_dm cog,
      DiscordChannel.build get_channel id (Some "") is_dm cog
      = DiscordChannel.build get_channel id None is_dm cog
      /\ (cog = None ->
          DiscordChannel.build get_channel id (Some "") is_dm cog
          = ([], inl (MinderBotError.Make (DiscordChannel.msg_no_guild id)
                        None None)))
      /\ (forall c g,
             cog = Some c -> guild_of c = Some g ->
             signals_not_found (get_channel g id) = true ->
             outcome (DiscordChannel.build get_channel id (Some "") is_dm cog)
             = inl (MinderBotError.Make (DiscordChannel.msg_unresolved id)
                      (ctx_of c) None))
      /\ (forall c g ch,
             cog = Some c -> guild_of c = Some g ->
             get_channel g id = Returns (Some ch) ->
             exists r,
               outcome (DiscordChannel.build get_channel id (Some "") is_dm cog)
               = inr r
               /\ DiscordChannel.name r = Channel.name ch)
      /\ (forall r,
             outcome (DiscordChannel.build get_channel id (Some "") is_dm cog)
             = inr r ->
             exists c g ch,
               cog = Some c /\ guild_of c = Some g
               /\ get_channel g id = Returns (Some ch)
               /\ DiscordChannel.name r = Channel.name ch
               /\ (Channel.name ch <> "" -> DiscordChannel.name r <> ""))).
Proof.
  split.
  - intros get_member id cog.
    split; [destruct cog; reflexivity |].
    split; [intros ->; reflexivity |].
    split; [| split].
    + intros c g -> Hg Hnf. build_by_resolve.
      rewrite Hg, (member_resolve_not_found _ _ _ Hnf). reflexivity.
    + intros c g m -> Hg H. eexists. split.
      * build_by_resolve.
        rewrite Hg, (member_resolve_returns _ _ _ _ H). reflexivity.
      * reflexivity.
    + intros r. destruct cog as [c |]; [| discriminate].
      build_by_resolve.
      destruct (outcome (DiscordMember.resolve _ _ _)) as [e | [m |]] eqn:E;
        try discriminate.
      intros [= <-].
      destruct (member_resolve_live _ _ _ _ E) as (g & Hg & H).
      exists c, g, m.
      split; [reflexivity |]. split; [exact Hg |]. split; [exact H |].
      split; [reflexivity |]. intros Hn. exact Hn.
  - intros get_channel id is_dm cog.
    split; [destruct cog; reflexivity |].
    split; [intros ->; reflexivity |].
    split; [| split].
    + intros c g -> Hg Hnf. build_by_resolve.
      rewrite Hg, (channel_resolve_not_found _ _ _ Hnf). reflexivity.
    + intros c g ch -> Hg H. eexists. split.
      * build_by_resolve.
        rewrite Hg, (channel_resolve_returns _ _ _ _ H). reflexivity.
      * reflexivity.
    + intros r. destruct cog as [c |]; [| discriminate].
      build_by_resolve.
      destruct (outcome (DiscordChannel.resolve _ _ _)) as [e | [ch |]] eqn:E;
        try discriminate.
      intros [= <-].
      destruct (channel_resolve_live _ _ _ _ E) as (g & Hg & H).
      exists c, g, ch.
      split; [reflexivity |]. split; [exact Hg |]. split; [exact H |].
      split; [reflexivity |]. intros Hn. exact Hn.
Qed.

Lemma C9_witness :
  DiscordMember.build sample_members 42 (Some "") None
  = ([], inl (MinderBotError.Make (DiscordMember.msg_no_guild 42) None None))
  /\ outcome (DiscordMember.build sample_members 44 (Some "")
                (Some (OfGuild guildX)))
     = inl (MinderBotError.Make (DiscordMember.msg_unresolved 44) None None)
  /\ (exists r,
        outcome (DiscordMember.build sample_members 42 (Some "")
                   (Some (OfGuild guildX))) = inr r
        /\ DiscordMember.name r = "alice")
  /\ (exists c g m,
        Some (OfGuild guildX) = Some c /\ guild_of c = Some g
        /\ sample_members g 42 = Returns (Some m)
        /\ DiscordMember.name (DiscordMember.Make 42 "alice" None None)
           = Member.name m
        /\ (Member.name m <> ""
            -> DiscordMember.name (DiscordMember.Make 42 "alice" None None)
               <> ""))
  /\ DiscordChannel.build sample_channels 7 (Some "") None None
     = ([], inl (MinderBotError.Make (DiscordChannel.msg_no_guild 7) None None))
  /\ outcome (DiscordChannel.build sample_channels 44 (Some "") None
                (Some (OfGuild guildX)))
     = inl (MinderBotError.Make (DiscordChannel.msg_unresolved 44) None None)
  /\ (exists r,
        outcome (DiscordChannel.build sample_channels 7 (Some "") None
                   (Some (OfGuild guildX))) = inr r
        /\ DiscordChannel.name r = "general").
Proof.
  pose proof (proj1 C9_empty_name_is_no_name sample_members) as Hm.
  pose proof (proj2 C9_empty_name_is_no_name sample_channels) as Hc.
  refine (conj _ (conj _ (conj _ (conj _ (conj _ (conj _ _)))))).
  - apply (proj1 (proj2 (Hm 42 None))). reflexivity.
  - apply (proj1 (proj2 (proj2 (Hm 44 (Some (OfGuild guildX)))))
             (OfGuild guildX) guildX); reflexivity.
  - apply (proj1 (proj2 (proj2 (proj2 (Hm 42 (Some (OfGuild guildX))))))
             (OfGuild guildX) guildX alice); reflexivity.
  - apply (proj2 (proj2 (proj2 (proj2 (Hm 42 (Some (OfGuild guildX))))))
             (DiscordMember.Make 42 "alice" None None)). reflexivity.
  - apply (proj1 (proj2 (Hc 7 None None))). reflexivity.
  - apply (proj1 (proj2 (proj2 (Hc 44 None (Some (OfGuild guildX)))))
             (OfGuild guildX) guildX); reflexivity.
  - apply (proj1 (proj2 (proj2 (proj2 (Hc 7 None (Some (OfGuild guildX))))))
             (OfGuild guildX) guildX general); reflexivity.
Defined.

(* ===================================================================== *)
(** * The record's name                                                  *)
(* ===================================================================== *)








(* ===================================================================== *)
(** * What the constructor keeps                                         *)
(* ===================================================================== *)

(** The [InitVar] arguments never reach the instance: a fresh record
    has neither a stored guild nor a live reference, its [mention] is
    its [name] and its [guild] is [None]. *)
Lemma member_init_keeps_fields_only id name g m :
  DiscordMember.member (DiscordMember.__init__ id name g m) = None
  /\ DiscordMember.mention (DiscordMember.__init__ id name g m) = name
  /\ DiscordMember.guild (DiscordMember.__init__ id name g m) = None.
Proof. repeat split. Qed.

Lemma channel_init_keeps_fields_only id name is_dm g c :
  DiscordChannel.channel (DiscordChannel.__init__ id name is_dm g c) = None
  /\ DiscordChannel.mention (DiscordChannel.__init__ id name is_dm g c) = name
  /\ DiscordChannel.guild (DiscordChannel.__init__ id name is_dm g c) = None.
Proof. repeat split. Qed.

(** C3, on the code.  When the provider returns a live object, [build]
    succeeds and takes the object's name when none was supplied, but the
    record has no live reference and its [mention] is its [name], not
    the object's mention string.  Member and channel variant. *)
Theorem C3_build_found_mention_is_name :
  (forall get_member id name cog g m,
      guild_of cog = Some g ->
      get_member g id = Returns (Some m) ->
      exists r,
        outcome (DiscordMember.build get_member id name (Some cog)) = inr r
        /\ (not_name name = true -> DiscordMember.name r = Member.name m)
        /\ DiscordMember.member r = None
        /\ DiscordMember.mention r = DiscordMember.name r)
  /\ (forall get_channel id name is_dm cog g c,
      guild_of cog = Some g ->
      get_channel g id = Returns (Some c) ->
      exists r,
        outcome (DiscordChannel.build get_channel id name is_dm (Some cog))
        = inr r
        /\ (not_name name = true -> DiscordChannel.name r = Channel.name c)
        /\ DiscordChannel.channel r = None
        /\ DiscordChannel.mention r = DiscordChannel.name r).
Proof.
  split.
  - intros get_member id name cog g m Hg H.
    destruct name as [[| a s] |]; eexists; (split; [
      build_by_resolve;
      rewrite Hg, (member_resolve_returns _ _ _ _ H); reflexivity |]);
      repeat split; discriminate.
  - intros get_channel id name is_dm cog g c Hg H.
    destruct name as [[| a s] |]; eexists; (split; [
      build_by_resolve;
      rewrite Hg, (channel_resolve_returns _ _ _ _ H); reflexivity |]);
      repeat split; discriminate.
Qed.

Lemma C3_witness :
  (exists r,
      outcome (DiscordMember.build sample_members 42 None
                 (Some (OfGuild guildX))) = inr r
      /\ (not_name None = true -> DiscordMember.name r = Member.name alice)
      /\ DiscordMember.member r = None
      /\ DiscordMember.mention r = DiscordMember.name r)
  /\ (exists r,
      outcome (DiscordChannel.build sample_channels 7 None None
                 (Some (OfGuild guildX))) = inr r
      /\ (not_name None = true -> DiscordChannel.name r = Channel.name general)
      /\ DiscordChannel.channel r = None
      /\ DiscordChannel.mention r = DiscordChannel.name r).
Proof.
  split.
  - apply (proj1 C3_build_found_mention_is_name sample_members 42 None
             (OfGuild guildX) guildX alice); reflexivity.
  - apply (proj2 C3_build_found_mention_is_name sample_channels 7 None None
             (OfGuild guildX) guildX general); reflexivity.
Defined.

(** The failing input of C3: the live member's mention is ["<@42>"], the
    record's is ["alice"]. *)
Example build_alice_mention :
  exists r,
    outcome (DiscordMember.build sample_members 42 None (Some (OfGuild guildX)))
    = inr r
    /\ DiscordMember.mention r = "alice"
    /\ Member.mention alice = "<@42>".
Proof. eexists. repeat split. Qed.

(** C7, on the code.  [from_member] and [from_channel] are total and
    copy [id] and [name]; [is_dm] is the runtime type of the channel.
    The live reference is not set and no scope is kept: the [member] /
    [channel] and [guild] properties of the result are [None]. *)
Theorem C7_from_live_object :
  (forall m,
      DiscordMember.id (DiscordMember.from_member m) = Member.id m
      /\ DiscordMember.name (DiscordMember.from_member m) = Member.name m
      /\ DiscordMember.member (DiscordMember.from_member m) = None
      /\ DiscordMember.guild (DiscordMember.from_member m) = None)
  /\ (forall c,
      DiscordChannel.id (DiscordChannel.from_channel c) = Channel.id c
      /\ DiscordChannel.name (DiscordChannel.from_channel c) = Channel.name c
      /\ DiscordChannel.is_dm (DiscordChannel.from_channel c)
         = Some (Channel.is_DMChannel c)
      /\ DiscordChannel.channel (DiscordChannel.from_channel c) = None
      /\ DiscordChannel.guild (DiscordChannel.from_channel c) = None)
  /\ DiscordChannel.is_dm (DiscordChannel.from_channel dm_channel) = Some true
  /\ DiscordMember.member (DiscordMember.from_member alice) <> Some alice
  /\ DiscordMember.guild (DiscordMember.from_member alice) <> Member.guild alice.
Proof.
  refine (conj _ (conj _ (conj _ (conj _ _)))).
  - intros m. repeat split.
  - intros c. repeat split.
  - reflexivity.
  - discriminate.
  - discriminate.
Qed.

(** C10, on the code.  [from_channel] passes no [_guild], and the
    [_channel] it passes is not kept either, so the [guild] property of
    the result is [None] for every channel: for a direct-message channel
    as the claim says, but also for [general], whose own guild is
    [guildY].  [from_member] passes the member's guild, which is dropped
    the same way. *)
Theorem C10_from_channel_guild :
  (forall c,
      DiscordChannel._guild (DiscordChannel.from_channel c) = None
      /\ DiscordChannel.guild (DiscordChannel.from_channel c) = None)
  /\ DiscordChannel.guild (DiscordChannel.from_channel dm_channel)
     = Channel.guild dm_channel
  /\ Channel.guild general = Some guildY
  /\ DiscordChannel.guild (DiscordChannel.from_channel general) = None
  /\ (forall m, DiscordMember._guild (DiscordMember.from_member m) = None).
Proof.
  refine (conj _ (conj _ (conj _ (conj _ _)))).
  - intros c. split; reflexivity.
  - reflexivity.
  - reflexivity.
  - reflexivity.
  - intros m. reflexivity.
Qed.

(* ===================================================================== *)
(** * Further properties of [resolve] and [build]                        *)
(* ===================================================================== *)

(** [resolve] on a guild, by what the provider does. *)
Lemma member_resolve_eq get_member id g :
  DiscordMember.resolve get_member id (Some g)
  = match get_member g id with
    | Returns r => ([ProviderCall get_member_m g id], inr r)
    | Raises ex =>
        if PyException.is_NotFound ex then
          ([ProviderCall get_member_m g id;
            LogWarning (DiscordMember.msg_warning id g)], inr None)
        else
          ([ProviderCall get_member_m g id],
           inl (MinderBotError.Make (DiscordMember.msg_general id ex) None
                  (Some ex)))
    end.
Proof.
  unfold DiscordMember.resolve, DiscordMember.handler.
  destruct (get_member g id) as [r | ex]; [reflexivity |].
  destruct (PyException.is_NotFound ex); reflexivity.
Qed.

Lemma channel_resolve_eq get_channel id g :
  DiscordChannel.resolve get_channel id (Some g)
  = match get_channel g id with
    | Returns r => ([ProviderCall get_channel_m g id], inr r)
    | Raises ex =>
        if PyException.is_NotFound ex then
          ([ProviderCall get_channel_m g id;
            LogWarning (DiscordChannel.msg_warning id g)], inr None)
        else
          ([ProviderCall get_channel_m g id],
           inl (MinderBotError.Make (DiscordChannel.msg_general id ex) None
                  (Some ex)))
    end.
Proof.
  unfold DiscordChannel.resolve, DiscordChannel.handler.
  destruct (get_channel g id) as [r | ex]; [reflexivity |].
  destruct (PyException.is_NotFound ex); reflexivity.
Qed.

(** Case analysis on the provider's answer inside a goal about
    [resolve] on a guild. *)
Ltac by_lookup lookup g id :=
  rewrite ?member_resolve_eq, ?channel_resolve_eq;
  let ex := fresh "ex" in
  let o := fresh "o" in
  destruct (lookup g id) as [[o |] | ex];
  [ | | destruct (PyException.is_NotFound ex) ].

(** X1.  Without a scope and with a non-empty name, [build] returns a
    record with the given id and name without calling the provider; the
    record's mention is the name and it has neither live reference nor
    guild.  The channel variant keeps the [is_dm] argument as given. *)
Theorem X1_build_name_only :
  (forall get_member id s,
      s <> "" ->
      exists r,
        DiscordMember.build get_member id (Some s) None = ([], inr r)
        /\ DiscordMember.id r = id
        /\ DiscordMember.name r = s
        /\ DiscordMember.mention r = s
        /\ DiscordMember.member r = None
        /\ DiscordMember.guild r = None)
  /\ (forall get_channel id s is_dm,
      s <> "" ->
      exists r,
        DiscordChannel.build get_channel id (Some s) is_dm None = ([], inr r)
        /\ DiscordChannel.id r = id
        /\ DiscordChannel.name r = s
        /\ DiscordChannel.is_dm r = is_dm
        /\ DiscordChannel.mention r = s
        /\ DiscordChannel.channel r = None
        /\ DiscordChannel.guild r = None).
Proof.
  split.
  - intros get_member id [| a s] Hs; [contradiction |].
    eexists. split; [reflexivity |]. repeat split.
  - intros get_channel id [| a s] is_dm Hs; [contradiction |].
    eexists. split; [reflexivity |]. repeat split.
    destruct is_dm; reflexivity.
Qed.

Lemma X1_witness :
  (exists r,
      DiscordMember.build sample_members 5 (Some "eve") None = ([], inr r)
      /\ DiscordMember.id r = 5
      /\ DiscordMember.name r = "eve"
      /\ DiscordMember.mention r = "eve"
      /\ DiscordMember.member r = None
      /\ DiscordMember.guild r = None)
  /\ (exists r,
      DiscordChannel.build sample_channels 6 (Some "lobby") (Some true) None
      = ([], inr r)
      /\ DiscordChannel.id r = 6
      /\ DiscordChannel.name r = "lobby"
      /\ DiscordChannel.is_dm r = Some true
      /\ DiscordChannel.mention r = "lobby"
      /\ DiscordChannel.channel r = None
      /\ DiscordChannel.guild r = None).
Proof.
  split.
  - apply (proj1 X1_build_name_only sample_members 5 "eve"). discriminate.
  - apply (proj2 X1_build_name_only sample_channels 6 "lobby" (Some true)).
    discriminate.
Defined.

(** X2.  A context without a guild: [build] passes [None] to [resolve],
    whose method lookup raises [AttributeError]; the call ends with the
    "General error" [MinderBotError] wrapping it, whatever the name,
    without a provider call and without the context attached. *)
Theorem X2_context_without_guild :
  (forall get_member id name ctx,
      Context.guild ctx = None ->
      DiscordMember.build get_member id name (Some (OfContext ctx))
      = ([], inl (MinderBotError.Make
                    (DiscordMember.msg_general id
                       (AttributeError_NoneType "get_member"))
                    None (Some (AttributeError_NoneType "get_member")))))
  /\ (forall get_channel id name is_dm ctx,
      Context.guild ctx = None ->
      DiscordChannel.build get_channel id name is_dm (Some (OfContext ctx))
      = ([], inl (MinderBotError.Make
                    (DiscordChannel.msg_general id
                       (AttributeError_NoneType "get_channel"))
                    None (Some (AttributeError_NoneType "get_channel"))))).
Proof.
  split.
  - intros get_member id name ctx H.
    unfold DiscordMember.build. simpl guild_of. rewrite H. reflexivity.
  - intros get_channel id name is_dm ctx H.
    unfold DiscordChannel.build. simpl guild_of. rewrite H. reflexivity.
Qed.

Lemma X2_witness :
  DiscordMember.build sample_members 42 (Some "alice")
    (Some (OfContext (Context.Make None)))
  = ([], inl (MinderBotError.Make
                (DiscordMember.msg_general 42
                   (AttributeError_NoneType "get_member"))
                None (Some (AttributeError_NoneType "get_member"))))
  /\ DiscordChannel.build sample_channels 7 None None
       (Some (OfContext (Context.Make None)))
     = ([], inl (MinderBotError.Make
                   (DiscordChannel.msg_general 7
                      (AttributeError_NoneType "get_channel"))
                   None (Some (AttributeError_NoneType "get_channel")))).
Proof.
  split.
  - apply (proj1 X2_context_without_guild sample_members 42 (Some "alice")
             (Context.Make None)). reflexivity.
  - apply (proj2 X2_context_without_guild sample_channels 7 None None
             (Context.Make None)). reflexivity.
Defined.

(** X3.  [build] calls the provider exactly once when the scope yields
    a guild, for that guild and the given id, and not at all otherwise
    (no scope, or a context without a guild), whatever the name and
    whatever the provider answers. *)
Theorem X3_build_provider_calls :
  (forall get_member id name cog,
      provider_calls (trace (DiscordMember.build get_member id name cog))
      = match cog with
        | Some c =>
            match guild_of c with
            | Some g => [(get_member_m, g, id)]
            | None => []
            end
        | None => []
        end)
  /\ (forall get_channel id name is_dm cog,
      provider_calls
        (trace (DiscordChannel.build get_channel id name is_dm cog))
      = match cog with
        | Some c =>
            match guild_of c with
            | Some g => [(get_channel_m, g, id)]
            | None => []
            end
        | None => []
        end).
Proof.
  split.
  - intros get_member id name [c |].
    + rewrite member_build_trace. destruct (guild_of c) as [g |];
        [| reflexivity].
      by_lookup get_member g id; reflexivity.
    + destruct name as [[| a s] |]; reflexivity.
  - intros get_channel id name is_dm [c |].
    + rewrite channel_build_trace. destruct (guild_of c) as [g |];
        [| reflexivity].
      by_lookup get_channel g id; reflexivity.
    + destruct name as [[| a s] |]; reflexivity.
Qed.

(** X4.  [build] logs one warning, naming the id and the guild, exactly
    when the provider raised [NotFound]; a lookup that returns [None]
    is not logged, and neither is any other outcome. *)
Theorem X4_build_warnings :
  (forall get_member id name cog g,
      guild_of cog = Some g ->
      warnings (trace (DiscordMember.build get_member id name (Some cog)))
      = if raised_NotFound (get_member g id)
        then [DiscordMember.msg_warning id g] else [])
  /\ (forall get_channel id name is_dm cog g,
      guild_of cog = Some g ->
      warnings
        (trace (DiscordChannel.build get_channel id name is_dm (Some cog)))
      = if raised_NotFound (get_channel g id)
        then [DiscordChannel.msg_warning id g] else []).
Proof.
  split.
  - intros get_member id name cog g Hg.
    rewrite member_build_trace, Hg, member_resolve_eq.
    destruct (get_member g id) as [r | ex]; [reflexivity |].
    simpl. destruct (PyException.is_NotFound ex); reflexivity.
  - intros get_channel id name is_dm cog g Hg.
    rewrite channel_build_trace, Hg, channel_resolve_eq.
    destruct (get_channel g id) as [r | ex]; [reflexivity |].
    simpl. destruct (PyException.is_NotFound ex); reflexivity.
Qed.

Lemma X4_witness :
  warnings (trace (DiscordMember.build sample_members 44 (Some "bob")
                     (Some (OfGuild guildX))))
  = [DiscordMember.msg_warning 44 guildX]
  /\ warnings (trace (DiscordChannel.build sample_channels 1 (Some "lobby")
                        None (Some (OfGuild guildX))))
     = [].
Proof.
  split.
  - apply (proj1 X4_build_warnings sample_members 44 (Some "bob")
             (OfGuild guildX) guildX). reflexivity.
  - apply (proj2 X4_build_warnings sample_channels 1 (Some "lobby") None
             (OfGuild guildX) guildX). reflexivity.
Defined.

(** X5.  [build] returns a record exactly on the inputs [build_returns]
    accepts: without a scope, when the name is non-empty; with a scope,
    when it yields a guild and either the name is non-empty and the
    lookup did not fail with anything but [NotFound], or the lookup
    returned a live object.  On all other inputs it raises. *)
Theorem X5_build_returns_iff :
  (forall get_member id name cog,
      (exists r,
          outcome (DiscordMember.build get_member id name cog) = inr r)
      <-> build_returns get_member id name cog = true)
  /\ (forall get_channel id name is_dm cog,
      (exists r,
          outcome (DiscordChannel.build get_channel id name is_dm cog) = inr r)
      <-> build_returns get_channel id name cog = true).
Proof.
  split.
  - intros get_member id name [c |]; unfold build_returns.
    + build_by_resolve. destruct (guild_of c) as [g |].
      * rewrite member_resolve_eq.
        destruct (get_member g id) as [[m |] | ex]; cbn;
          [ | | destruct (PyException.is_NotFound ex) ];
          destruct name as [[| a s] |]; cbn;
          split; try discriminate; try (intros [r H]; discriminate);
          intros _; eexists; reflexivity.
      * simpl. split; [intros [r H] |]; discriminate.
    + destruct name as [[| a s] |]; simpl;
        split; try discriminate; try (intros [r H]; discriminate);
        intros _; eexists; reflexivity.
  - intros get_channel id name is_dm [c |]; unfold build_returns.
    + build_by_resolve. destruct (guild_of c) as [g |].
      * rewrite channel_resolve_eq.
        destruct (get_channel g id) as [[ch |] | ex]; cbn;
          [ | | destruct (PyException.is_NotFound ex) ];
          destruct name as [[| a s] |]; cbn;
          split; try discriminate; try (intros [r H]; discriminate);
          intros _; eexists; reflexivity.
      * simpl. split; [intros [r H] |]; discriminate.
    + destruct name as [[| a s] |]; simpl;
        split; try discriminate; try (intros [r H]; discriminate);
        intros _; eexists; reflexivity.
Qed.

Lemma X5_witness :
  (exists r,
      outcome (DiscordMember.build sample_members 42 None
                 (Some (OfGuild guildX))) = inr r)
  /\ build_returns sample_members 44 None (Some (OfGuild guildX)) = false
  /\ (exists r,
        outcome (DiscordChannel.build sample_channels 44 (Some "gone") None
                   (Some (OfGuild guildX))) = inr r).
Proof.
  refine (conj _ (conj eq_refl _)).
  - apply (proj2 (proj1 X5_build_returns_iff sample_members 42 None
                    (Some (OfGuild guildX)))). reflexivity.
  - apply (proj2 (proj2 X5_build_returns_iff sample_channels 44 (Some "gone")
                    None (Some (OfGuild guildX)))). reflexivity.
Defined.

(** X6.  Every record [build] returns has the id it was given, and a
    non-empty name that was supplied is the record's name, also when
    the provider returned a live object with another name. *)
Theorem X6_build_keeps_id_and_name :
  (forall get_member id name cog r,
      outcome (DiscordMember.build get_member id name cog) = inr r ->
      DiscordMember.id r = id
      /\ forall s, name = Some s -> s <> "" -> DiscordMember.name r = s)
  /\ (forall get_channel id name is_dm cog r,
      outcome (DiscordChannel.build get_channel id name is_dm cog) = inr r ->
      DiscordChannel.id r = id
      /\ forall s, name = Some s -> s <> "" -> DiscordChannel.name r = s).
Proof.
  split.
  - intros get_member id name cog r. destruct cog as [c |].
    + build_by_resolve.
      destruct (outcome (DiscordMember.resolve _ _ _)) as [e | [m |]];
        destruct name as [[| a s] |]; try discriminate;
        intros [= <-]; (split; [reflexivity |]);
        intros s' [= <-] Hs; try reflexivity; contradiction.
    + destruct name as [[| a s] |]; try discriminate.
      intros [= <-]. split; [reflexivity |]. intros s' [= <-] _. reflexivity.
  - intros get_channel id name is_dm cog r. destruct cog as [c |].
    + build_by_resolve.
      destruct (outcome (DiscordChannel.resolve _ _ _)) as [e | [ch |]];
        destruct name as [[| a s] |]; try discriminate;
        intros [= <-]; (split; [reflexivity |]);
        intros s' [= <-] Hs; try reflexivity; contradiction.
    + destruct name as [[| a s] |]; try discriminate.
      intros [= <-]. split; [reflexivity |]. intros s' [= <-] _. reflexivity.
Qed.

Lemma X6_witness :
  (outcome (DiscordMember.build sample_members 42 (Some "al")
              (Some (OfGuild guildX)))
   = inr (DiscordMember.Make 42 "al" None None)
   /\ DiscordMember.id (DiscordMember.Make 42 "al" None None) = 42
   /\ DiscordMember.name (DiscordMember.Make 42 "al" None None) = "al")
  /\ (outcome (DiscordChannel.build sample_channels 7 (Some "gen") None
                 (Some (OfGuild guildX)))
      = inr (DiscordChannel.Make 7 "gen" (Some false) None None)
      /\ DiscordChannel.id (DiscordChannel.Make 7 "gen" (Some false) None None)
         = 7
      /\ DiscordChannel.name
           (DiscordChannel.Make 7 "gen" (Some false) None None) = "gen").
Proof.
  pose proof (proj1 X6_build_keeps_id_and_name sample_members 42 (Some "al")
                (Some (OfGuild guildX)) _ eq_refl) as [Hid Hname].
  pose proof (proj2 X6_build_keeps_id_and_name sample_channels 7 (Some "gen")
                None (Some (OfGuild guildX)) _ eq_refl) as [Hid' Hname'].
  refine (conj (conj eq_refl (conj Hid _)) (conj eq_refl (conj Hid' _))).
  - apply (Hname "al"); [reflexivity | discriminate].
  - apply (Hname' "gen"); [reflexivity | discriminate].
Defined.

(** X7.  The [is_dm] of a record returned by the channel [build]: an
    [is_dm] argument that was supplied is kept as it is, also when it
    contradicts the runtime type of the live channel; without the
    argument it is the runtime type of the live channel when the
    provider returned one, and stays [None] when there was no scope or
    the lookup found nothing. *)
Theorem X7_build_is_dm :
  forall get_channel id name is_dm cog r,
    outcome (DiscordChannel.build get_channel id name is_dm cog) = inr r ->
    (forall b, is_dm = Some b -> DiscordChannel.is_dm r = Some b)
    /\ (forall c g ch,
           is_dm = None -> cog = Some c -> guild_of c = Some g ->
           get_channel g id = Returns (Some ch) ->
           DiscordChannel.is_dm r = Some (Channel.is_DMChannel ch))
    /\ (is_dm = None ->
        (cog = None
         \/ exists c g, cog = Some c /\ guild_of c = Some g
                        /\ signals_not_found (get_channel g id) = true) ->
        DiscordChannel.is_dm r = None).
Proof.
  intros get_channel id name is_dm cog r H.
  split; [| split].
  - intros b ->. revert H. destruct cog as [c |].
    + build_by_resolve.
      destruct (outcome (DiscordChannel.resolve _ _ _)) as [e | [ch |]];
        destruct name as [[| a s] |]; try discriminate;
        intros [= <-]; reflexivity.
    + destruct name as [[| a s] |]; try discriminate.
      intros [= <-]. reflexivity.
  - intros c g ch -> -> Hg Hlive. revert H. build_by_resolve.
    rewrite Hg, (channel_resolve_returns _ _ _ _ Hlive).
    destruct name as [[| a s] |]; intros [= <-]; reflexivity.
  - intros -> [-> | (c & g & -> & Hg & Hnf)]; revert H.
    + destruct name as [[| a s] |]; try discriminate.
      intros [= <-]. reflexivity.
    + build_by_resolve.
      rewrite Hg, (channel_resolve_not_found _ _ _ Hnf).
      destruct name as [[| a s] |]; try discriminate.
      intros [= <-]. reflexivity.
Qed.

Lemma X7_witness :
  (outcome (DiscordChannel.build sample_channels 8 None (Some false)
              (Some (OfGuild guildX)))
   = inr (DiscordChannel.Make 8 "dm" (Some false) None None)
   /\ Channel.is_DMChannel dm_channel = true
   /\ DiscordChannel.is_dm (DiscordChannel.Make 8 "dm" (Some false) None None)
      = Some false)
  /\ (outcome (DiscordChannel.build sample_channels 8 None None
                 (Some (OfGuild guildX)))
      = inr (DiscordChannel.Make 8 "dm" (Some true) None None)
      /\ DiscordChannel.is_dm
           (DiscordChannel.Make 8 "dm" (Some true) None None)
         = Some (Channel.is_DMChannel dm_channel))
  /\ (outcome (DiscordChannel.build sample_channels 1 (Some "lobby") None
                 (Some (OfGuild guildX)))
      = inr (DiscordChannel.Make 1 "lobby" None None None)
      /\ DiscordChannel.is_dm (DiscordChannel.Make 1 "lobby" None None None)
         = None).
Proof.
  refine (conj (conj eq_refl (conj eq_refl _))
            (conj (conj eq_refl _) (conj eq_refl _))).
  - apply (proj1 (X7_build_is_dm sample_channels 8 None (Some false)
                    (Some (OfGuild guildX)) _ eq_refl) false).
    reflexivity.
  - apply (proj1 (proj2 (X7_build_is_dm sample_channels 8 None None
                           (Some (OfGuild guildX)) _ eq_refl))
             (OfGuild guildX) guildX dm_channel); reflexivity.
  - apply (proj2 (proj2 (X7_build_is_dm sample_channels 1 (Some "lobby") None
                           (Some (OfGuild guildX)) _ eq_refl)));
      [reflexivity |].
    right. exists (OfGuild guildX), guildX. repeat split.
Defined.

(** X8.  Passing a context is the same as passing its guild, except for
    the error of an unresolved id: the trace is the same, a record
    returned for the guild is returned for the context, and an error
    raised for the guild is raised for the context with the same message
    and cause; the context is attached to it exactly when it is the
    "Failed to resolve" error, which has no cause. *)
Theorem X8_context_or_its_guild :
  (forall get_member id name ctx g,
      Context.guild ctx = Some g ->
      trace (DiscordMember.build get_member id name (Some (OfContext ctx)))
      = trace (DiscordMember.build get_member id name (Some (OfGuild g)))
      /\ match outcome (DiscordMember.build get_member id name
                          (Some (OfGuild g))) with
         | inr r =>
             outcome (DiscordMember.build get_member id name
                        (Some (OfContext ctx))) = inr r
         | inl e =>
             outcome (DiscordMember.build get_member id name
                        (Some (OfContext ctx)))
             = inl (MinderBotError.Make (MinderBotError.message e)
                      (match MinderBotError.base_exception e with
                       | None => Some ctx
                       | Some _ => None
                       end)
                      (MinderBotError.base_exception e))
         end)
  /\ (forall get_channel id name is_dm ctx g,
      Context.guild ctx = Some g ->
      trace (DiscordChannel.build get_channel id name is_dm
               (Some (OfContext ctx)))
      = trace (DiscordChannel.build get_channel id name is_dm
                 (Some (OfGuild g)))
      /\ match outcome (DiscordChannel.build get_channel id name is_dm
                          (Some (OfGuild g))) with
         | inr r =>
             outcome (DiscordChannel.build get_channel id name is_dm
                        (Some (OfContext ctx))) = inr r
         | inl e =>
             outcome (DiscordChannel.build get_channel id name is_dm
                        (Some (OfContext ctx)))
             = inl (MinderBotError.Make (MinderBotError.message e)
                      (match MinderBotError.base_exception e with
                       | None => Some ctx
                       | Some _ => None
                       end)
                      (MinderBotError.base_exception e))
         end).
Proof.
  split.
  - intros get_member id name ctx g H. split.
    + rewrite !member_build_trace. simpl. rewrite H. reflexivity.
    + unfold DiscordMember.build. rewrite !outcome_bind. simpl guild_of.
      rewrite H, member_resolve_eq.
      destruct (get_member g id) as [[m |] | ex]; cbn;
        [ | | destruct (PyException.is_NotFound ex) ];
        destruct name as [[| a s] |]; reflexivity.
  - intros get_channel id name is_dm ctx g H. split.
    + rewrite !channel_build_trace. simpl. rewrite H. reflexivity.
    + unfold DiscordChannel.build. rewrite !outcome_bind. simpl guild_of.
      rewrite H, channel_resolve_eq.
      destruct (get_channel g id) as [[ch |] | ex]; cbn;
        [ | | destruct (PyException.is_NotFound ex) ];
        destruct name as [[| a s] |]; reflexivity.
Qed.

Lemma X8_witness :
  (trace (DiscordMember.build sample_members 44 None
            (Some (OfContext (Context.Make (Some guildX)))))
   = trace (DiscordMember.build sample_members 44 None (Some (OfGuild guildX)))
   /\ outcome (DiscordMember.build sample_members 44 None
                 (Some (OfContext (Context.Make (Some guildX)))))
      = inl (MinderBotError.Make (DiscordMember.msg_unresolved 44)
               (Some (Context.Make (Some guildX))) None))
  /\ (trace (DiscordChannel.build sample_channels 45 (Some "x") None
               (Some (OfContext (Context.Make (Some guildX)))))
      = trace (DiscordChannel.build sample_channels 45 (Some "x") None
                 (Some (OfGuild guildX)))
      /\ outcome (DiscordChannel.build sample_channels 45 (Some "x") None
                    (Some (OfContext (Context.Make (Some guildX)))))
         = inl (MinderBotError.Make (DiscordChannel.msg_general 45 Forbidden)
                  None (Some Forbidden))).
Proof.
  split.
  - apply (proj1 X8_context_or_its_guild sample_members 44 None
             (Context.Make (Some guildX)) guildX). reflexivity.
  - apply (proj2 X8_context_or_its_guild sample_channels 45 (Some "x") None
             (Context.Make (Some guildX)) guildX). reflexivity.
Defined.

(** X9.  Wrapping a live object and looking it up give the same
    record: when the provider returns the object for the object's own
    id, [build] without a name (and, for a channel, without [is_dm])
    returns what [from_member] / [from_channel] returns for the
    object. *)
Theorem X9_build_agrees_with_from_live :
  (forall get_member cog g m,
      guild_of cog = Some g ->
      get_member g (Member.id m) = Returns (Some m) ->
      outcome (DiscordMember.build get_member (Member.id m) None (Some cog))
      = inr (DiscordMember.from_member m))
  /\ (forall get_channel cog g c,
      guild_of cog = Some g ->
      get_channel g (Channel.id c) = Returns (Some c) ->
      outcome (DiscordChannel.build get_channel (Channel.id c) None None
                 (Some cog))
      = inr (DiscordChannel.from_channel c)).
Proof.
  split.
  - intros get_member cog g m Hg H. build_by_resolve.
    rewrite Hg, (member_resolve_returns _ _ _ _ H). reflexivity.
  - intros get_channel cog g c Hg H. build_by_resolve.
    rewrite Hg, (channel_resolve_returns _ _ _ _ H). reflexivity.
Qed.

Lemma X9_witness :
  outcome (DiscordMember.build sample_members 42 None (Some (OfGuild guildX)))
  = inr (DiscordMember.from_member alice)
  /\ outcome (DiscordChannel.build sample_channels 8 None None
                (Some (OfGuild guildX)))
     = inr (DiscordChannel.from_channel dm_channel).
Proof.
  split.
  - apply (proj1 X9_build_agrees_with_from_live sample_members
             (OfGuild guildX) guildX alice); reflexivity.
  - apply (proj2 X9_build_agrees_with_from_live sample_channels
             (OfGuild guildX) guildX dm_channel); reflexivity.
Defined.

(** X10.  The errors of [build] are of three kinds and no other: "No
    guild/context provided" when there is neither scope nor name;
    "Failed to resolve", carrying the context if one was passed, when
    there is no name and the lookup on the guild signalled not found;
    and "General error", whose cause is an exception that is not
    [NotFound]: the provider's, or the [AttributeError] of a context
    without a guild.  A [NotFound] is never the cause of an error, and
    only the general error has a cause. *)
Theorem X10_build_errors :
  (forall get_member id name cog e,
      outcome (DiscordMember.build get_member id name cog) = inl e ->
      (cog = None /\ not_name name = true
       /\ e = MinderBotError.Make (DiscordMember.msg_no_guild id) None None)
      \/ (exists c g,
             cog = Some c /\ guild_of c = Some g /\ not_name name = true
             /\ signals_not_found (get_member g id) = true
             /\ e = MinderBotError.Make (DiscordMember.msg_unresolved id)
                      (ctx_of c) None)
      \/ (exists c ex,
             cog = Some c /\ PyException.is_NotFound ex = false
             /\ e = MinderBotError.Make (DiscordMember.msg_general id ex)
                      None (Some ex)
             /\ ((guild_of c = None
                  /\ ex = AttributeError_NoneType "get_member")
                 \/ exists g, guild_of c = Some g
                              /\ get_member g id = Raises ex)))
  /\ (forall get_channel id name is_dm cog e,
      outcome (DiscordChannel.build get_channel id name is_dm cog) = inl e ->
      (cog = None /\ not_name name = true
       /\ e = MinderBotError.Make (DiscordChannel.msg_no_guild id) None None)
      \/ (exists c g,
             cog = Some c /\ guild_of c = Some g /\ not_name name = true
             /\ signals_not_found (get_channel g id) = true
             /\ e = MinderBotError.Make (DiscordChannel.msg_unresolved id)
                      (ctx_of c) None)
      \/ (exists c ex,
             cog = Some c /\ PyException.is_NotFound ex = false
             /\ e = MinderBotError.Make (DiscordChannel.msg_general id ex)
                      None (Some ex)
             /\ ((guild_of c = None
                  /\ ex = AttributeError_NoneType "get_channel")
                 \/ exists g, guild_of c = Some g
                              /\ get_channel g id = Raises ex))).
Proof.
  split.
  - intros get_member id name [c |] e.
    + build_by_resolve. destruct (guild_of c) as [g |] eqn:Hg.
      * rewrite member_resolve_eq.
        destruct (get_member g id) as [[m |] | ex] eqn:E; cbn;
          [ | | destruct (PyException.is_NotFound ex) eqn:Hnf ];
          destruct name as [[| a s] |]; cbn; try discriminate;
          intros [= <-].
        all: try (right; left; exists c, g; rewrite E; cbn; rewrite ?Hnf;
                  repeat split; assumption).
        all: right; right; exists c, ex; repeat split; try assumption;
          right; exists g; split; first [assumption | reflexivity].
      * cbn. intros [= <-]. right; right.
        exists c, (AttributeError_NoneType "get_member").
        repeat split. left. split; [exact Hg | reflexivity].
    + destruct name as [[| a s] |]; cbn; try discriminate;
        intros [= <-]; left; repeat split.
  - intros get_channel id name is_dm [c |] e.
    + build_by_resolve. destruct (guild_of c) as [g |] eqn:Hg.
      * rewrite channel_resolve_eq.
        destruct (get_channel g id) as [[ch |] | ex] eqn:E; cbn;
          [ | | destruct (PyException.is_NotFound ex) eqn:Hnf ];
          destruct name as [[| a s] |]; cbn; try discriminate;
          intros [= <-].
        all: try (right; left; exists c, g; rewrite E; cbn; rewrite ?Hnf;
                  repeat split; assumption).
        all: right; right; exists c, ex; repeat split; try assumption;
          right; exists g; split; first [assumption | reflexivity].
      * cbn. intros [= <-]. right; right.
        exists c, (AttributeError_NoneType "get_channel").
        repeat split. left. split; [exact Hg | reflexivity].
    + destruct name as [[| a s] |]; cbn; try discriminate;
        intros [= <-]; left; repeat split.
Qed.

Lemma X10_witness :
  outcome (DiscordMember.build sample_members 45 (Some "bob")
             (Some (OfGuild guildX)))
  = inl (MinderBotError.Make (DiscordMember.msg_general 45 Forbidden) None
           (Some Forbidden))
  /\ ((Some (OfGuild guildX) = None /\ not_name (Some "bob") = true
       /\ MinderBotError.Make (DiscordMember.msg_general 45 Forbidden) None
            (Some Forbidden)
          = MinderBotError.Make (DiscordMember.msg_no_guild 45) None None)
      \/ (exists c g,
             Some (OfGuild guildX) = Some c /\ guild_of c = Some g
             /\ not_name (Some "bob") = true
             /\ signals_not_found (sample_members g 45) = true
             /\ MinderBotError.Make (DiscordMember.msg_general 45 Forbidden)
                  None (Some Forbidden)
                = MinderBotError.Make (DiscordMember.msg_unresolved 45)
                    (ctx_of c) None)
      \/ (exists c ex,
             Some (OfGuild guildX) = Some c
             /\ PyException.is_NotFound ex = false
             /\ MinderBotError.Make (DiscordMember.msg_general 45 Forbidden)
                  None (Some Forbidden)
                = MinderBotError.Make (DiscordMember.msg_general 45 ex)
                    None (Some ex)
             /\ ((guild_of c = None
                  /\ ex = AttributeError_NoneType "get_member")
                 \/ exists g, guild_of c = Some g
                              /\ sample_members g 45 = Raises ex))).
Proof.
  split; [reflexivity |].
  apply (proj1 X10_build_errors sample_members 45 (Some "bob")
           (Some (OfGuild guildX))).
  reflexivity.
Defined.

(** X11.  [build] reads the directory at one place only, the given id
    on the guild of the scope: two providers that agree there give the
    same trace and the same result, and without a scope the result does
    not depend on the provider at all. *)
Theorem X11_build_reads_one_entry :
  (forall get_member get_member' id name cog,
      (forall c g, cog = Some c -> guild_of c = Some g ->
                   get_member g id = get_member' g id) ->
      DiscordMember.build get_member id name cog
      = DiscordMember.build get_member' id name cog)
  /\ (forall get_channel get_channel' id name is_dm cog,
      (forall c g, cog = Some c -> guild_of c = Some g ->
                   get_channel g id = get_channel' g id) ->
      DiscordChannel.build get_channel id name is_dm cog
      = DiscordChannel.build get_channel' id name is_dm cog).
Proof.
  split.
  - intros get_member get_member' id name [c |] H; [| reflexivity].
    unfold DiscordMember.build.
    destruct (guild_of c) as [g |] eqn:Hg; [| reflexivity].
    cbv zeta. rewrite !member_resolve_eq, (H c g eq_refl Hg). reflexivity.
  - intros get_channel get_channel' id name is_dm [c |] H; [| reflexivity].
    unfold DiscordChannel.build.
    destruct (guild_of c) as [g |] eqn:Hg; [| reflexivity].
    cbv zeta. rewrite !channel_resolve_eq, (H c g eq_refl Hg). reflexivity.
Qed.

(** A directory that differs from [sample_members] away from id 42. *)
Lemma sample_members_agree_42 (c : ContextOrGuild) (g : Guild.t) :
  Some (OfGuild guildX) = Some c -> guild_of c = Some g ->
  sample_members g 42
  = (fun g' id' => if id' =? 42 then sample_members g' id'
                   else Raises Forbidden) g 42.
Proof. reflexivity. Qed.

Lemma sample_channels_agree_7 (c : ContextOrGuild) (g : Guild.t) :
  Some (OfGuild guildX) = Some c -> guild_of c = Some g ->
  sample_channels g 7
  = (fun g' id' => if id' =? 7 then sample_channels g' id'
                   else Raises Forbidden) g 7.
Proof. reflexivity. Qed.

Lemma X11_witness :
  DiscordMember.build sample_members 42 None (Some (OfGuild guildX))
  = DiscordMember.build
      (fun g' id' => if id' =? 42 then sample_members g' id'
                     else Raises Forbidden)
      42 None (Some (OfGuild guildX))
  /\ DiscordChannel.build sample_channels 7 None None (Some (OfGuild guildX))
     = DiscordChannel.build
         (fun g' id' => if id' =? 7 then sample_channels g' id'
                        else Raises Forbidden)
         7 None None (Some (OfGuild guildX)).
Proof.
  split.
  - apply (proj1 X11_build_reads_one_entry). exact sample_members_agree_42.
  - apply (proj2 X11_build_reads_one_entry). exact sample_channels_agree_7.
Defined.

(* ===================================================================== *)
(** * The [nitpick_ignore] loop of [docs/conf.py]                        *)
(* ===================================================================== *)

(** X12.  After the loop over the builtin names, [nitpick_ignore] holds
    one entry, for the last name; no other name is in it.  Over no names
    it stays empty. *)
Theorem X12_nitpick_ignore_keeps_last :
  DocsConf.nitpick_ignore [] = []
  /\ (forall names last,
         DocsConf.nitpick_ignore (names ++ [last]) = [("py:class", last)])
  /\ (forall names last name,
         name <> last ->
         ~ In ("py:class", name) (DocsConf.nitpick_ignore (names ++ [last]))).
Proof.
  assert (Hlast : forall names last,
             DocsConf.nitpick_ignore (names ++ [last]) = [("py:class", last)]).
  { intros names last. unfold DocsConf.nitpick_ignore.
    rewrite fold_left_app. reflexivity. }
  split; [reflexivity |]. split; [exact Hlast |].
  intros names last name Hne. rewrite Hlast.
  intros [[= H] | []]. exact (Hne (eq_sym H)).
Qed.

Lemma X12_witness :
  ~ In ("py:class", "abs")
      (DocsConf.nitpick_ignore (["abs"; "all"; "any"] ++ ["zip"])).
Proof.
  apply (proj2 (proj2 X12_nitpick_ignore_keeps_last) ["abs"; "all"; "any"]
           "zip" "abs").
  discriminate.
Defined.
